(** * Verification of the Data Matrix decoder and GS1 parser

    A shallow embedding of [src/gs1-parser-test.js] (the GS1 parser, the
    GTIN to NDC converter and the expiration-date formatter) and of the
    decode script [src/decode-dm.js]. *)

From Stdlib Require Import Bool Arith ZArith Lia List String Ascii.
From Stdlib Require Import Numbers.DecimalString.
Import ListNotations.
Open Scope string_scope.

(* ------------------------------------------------------------------ *)
(** ** JavaScript string and number built-ins used by the parser *)

Module JS.

(** [s.substring(start, end)]; every call site has [start <= end], so the
    argument swap of the built-in never happens. Out-of-range indices are
    clamped to the length, as Rocq's [substring] does. *)
Definition substring (s : string) (start stop : nat) : string :=
  String.substring start (stop - start) s.

(** [s.substring(start)]: everything from [start] on. *)
Definition substring_from (s : string) (start : nat) : string :=
  String.substring start (String.length s - start) s.

Definition code (c : ascii) : nat := nat_of_ascii c.

(** White space and line terminators removed by [TrimString], among the
    code units below 256: tab, LF, VT, FF, CR, space and U+00A0. *)
Definition is_ws (c : ascii) : bool :=
  ((code c =? 32) || ((9 <=? code c) && (code c <=? 13)) || (code c =? 160))%nat.

Definition is_digit (c : ascii) : bool :=
  ((48 <=? code c) && (code c <=? 57))%nat.

(** Value of [c] as a digit in radix 10 or 16, if it is one. *)
Definition digit_value (radix : Z) (c : ascii) : option Z :=
  let n := code c in
  let v :=
    if ((48 <=? n) && (n <=? 57))%nat then Some (Z.of_nat (n - 48))
    else if ((97 <=? n) && (n <=? 102))%nat then Some (Z.of_nat (n - 87))
    else if ((65 <=? n) && (n <=? 70))%nat then Some (Z.of_nat (n - 55))
    else None in
  match v with
  | Some d => if (d <? radix)%Z then Some d else None
  | None => None
  end.

Fixpoint trim_start (s : string) : string :=
  match s with
  | String c s' => if is_ws c then trim_start s' else s
  | EmptyString => s
  end.

(** Longest prefix of radix digits, accumulated onto [acc]; [None] when the
    prefix is empty. *)
Fixpoint digits_prefix (radix : Z) (s : string) (acc : option Z) : option Z :=
  match s with
  | String c s' =>
      match digit_value radix c with
      | Some d =>
          let a := match acc with Some a => a | None => 0%Z end in
          digits_prefix radix s' (Some (a * radix + d)%Z)
      | None => acc
      end
  | EmptyString => acc
  end.

(** [parseInt(s)] with no radix; [None] is [NaN]. *)
Definition parseInt (s : string) : option Z :=
  let s := trim_start s in
  let '(sign, s) :=
    match s with
    | String "-" s' => ((-1)%Z, s')
    | String "+" s' => (1%Z, s')
    | _ => (1%Z, s)
    end in
  let '(radix, s) :=
    match s with
    | String "0" (String "x" s') => (16%Z, s')
    | String "0" (String "X" s') => (16%Z, s')
    | _ => (10%Z, s)
    end in
  match digits_prefix radix s None with
  | Some v => Some (sign * v)%Z
  | None => None
  end.

Definition Z_to_string (z : Z) : string :=
  NilEmpty.string_of_int (Z.to_int z).

End JS.

(* ------------------------------------------------------------------ *)
(** ** JavaScript [Date] as far as [formatExpirationDate] uses it

    A date is its day number since 1970-01-01 (the time value divided by
    the milliseconds of a day; construction and formatting both use local
    time, so the time-zone offset cancels). [None] is an Invalid Date. *)

Module JSDate.

(** Day number of the proleptic Gregorian date [y]-[m]-[d], [m] in 1..12. *)
Definition days_from_civil (y m d : Z) : Z :=
  let y := if (m <=? 2)%Z then (y - 1)%Z else y in
  let era := (y / 400)%Z in
  let yoe := (y - era * 400)%Z in
  let mp := if (2 <? m)%Z then (m - 3)%Z else (m + 9)%Z in
  let doy := ((153 * mp + 2) / 5 + d - 1)%Z in
  let doe := (yoe * 365 + yoe / 4 - yoe / 100 + doy)%Z in
  (era * 146097 + doe - 719468)%Z.

(** Year, month (1..12) and day of a day number. *)
Definition civil_from_days (z : Z) : Z * Z * Z :=
  let z := (z + 719468)%Z in
  let era := (z / 146097)%Z in
  let doe := (z - era * 146097)%Z in
  let yoe := ((doe - doe / 1460 + doe / 36524 - doe / 146096) / 365)%Z in
  let y := (yoe + era * 400)%Z in
  let doy := (doe - (365 * yoe + yoe / 4 - yoe / 100))%Z in
  let mp := ((5 * doy + 2) / 153)%Z in
  let d := (doy - (153 * mp + 2) / 5 + 1)%Z in
  let m := if (mp <? 10)%Z then (mp + 3)%Z else (mp - 9)%Z in
  ((if (m <=? 2)%Z then (y + 1)%Z else y), m, d).

(** [MakeDay(year, month, date)]: the month (0-based) may lie outside
    0..11 and the date outside the month; both roll over. *)
Definition MakeDay (year month date : Z) : Z :=
  let ym := (year + month / 12)%Z in
  let mn := (month mod 12)%Z in
  (days_from_civil ym (mn + 1) 1 + date - 1)%Z.

(** [new Date(year, month, day)]: [NaN] in any argument gives an Invalid
    Date; a year in 0..99 means 1900..1999. *)
Definition new_Date (year month day : option Z) : option Z :=
  match year, month, day with
  | Some y, Some m, Some d =>
      let yr := if (0 <=? y)%Z && (y <=? 99)%Z then (1900 + y)%Z else y in
      Some (MakeDay yr m d)
  | _, _, _ => None
  end.

Definition month_name (m : Z) : string :=
  nth (Z.to_nat (m - 1))
    ["January"; "February"; "March"; "April"; "May"; "June"; "July";
     "August"; "September"; "October"; "November"; "December"] "".

(** [date.toLocaleDateString('en-US', {year:'numeric', month:'long',
    day:'numeric'})]. *)
Definition toLocaleDateString (date : option Z) : string :=
  match date with
  | Some t =>
      let '(y, m, d) := civil_from_days t in
      month_name m ++ " " ++ JS.Z_to_string d ++ ", " ++ JS.Z_to_string y
  | None => "Invalid Date"
  end.

End JSDate.

(* ------------------------------------------------------------------ *)
(** ** [src/gs1-parser-test.js] *)

Module GS1.

(** The JavaScript error thrown by [convertGTINtoNDC]. *)
Inductive js_error := InvalidGTINFormat.

Inductive outcome (A : Type) : Type :=
| Ret (a : A)
| Throw (e : js_error).
Arguments Ret {A} a.
Arguments Throw {A} e.

(** [convertGTINtoNDC(gtin)]. *)
Definition convertGTINtoNDC (gtin : string) : outcome string :=
  if negb (String.length gtin =? 14)%nat then Throw InvalidGTINFormat
  else
    let withoutPrefix := JS.substring_from gtin 3 in
    let labeler := JS.substring withoutPrefix 0 5 in
    let product := JS.substring withoutPrefix 5 9 in
    let packageCode := JS.substring withoutPrefix 9 11 in
    Ret (labeler ++ "-" ++ product ++ "-" ++ packageCode).

(** The year [formatExpirationDate] resolves the two-digit year to
    (line 80); [None] is [NaN]. *)
Definition fullYear (yymmdd : string) : option Z :=
  match JS.parseInt (JS.substring yymmdd 0 2) with
  | Some year => Some (if (year <=? 30)%Z then (2000 + year)%Z else (1900 + year)%Z)
  | None => None
  end.

(** The [Date] built at line 82: [new Date(fullYear, month - 1, day)]. *)
Definition expirationDateValue (yymmdd : string) : option Z :=
  let month := JS.parseInt (JS.substring yymmdd 2 4) in
  let day := JS.parseInt (JS.substring yymmdd 4 6) in
  JSDate.new_Date (fullYear yymmdd)
    (match month with Some m => Some (m - 1)%Z | None => None end) day.

(** [formatExpirationDate(yymmdd)]. *)
Definition formatExpirationDate (yymmdd : string) : string :=
  if negb (String.length yymmdd =? 6)%nat then yymmdd
  else JSDate.toLocaleDateString (expirationDateValue yymmdd).

(** The [result] object; [None] is an absent property. [serialNumber] is
    the property the test script reads (line 175). *)
Record gs1_record := mk_record {
  raw : string;
  gtin : option string;
  ndc : option string;
  expirationDateRaw : option string;
  expirationDate : option string;
  lotNumber : option string;
  serialNumber : option string
}.

Definition init_record (data : string) : gs1_record :=
  mk_record data None None None None None None.

Definition set_gtin v r :=
  mk_record (raw r) (Some v) (ndc r) (expirationDateRaw r) (expirationDate r) (lotNumber r) (serialNumber r).
Definition set_ndc v r :=
  mk_record (raw r) (gtin r) (Some v) (expirationDateRaw r) (expirationDate r) (lotNumber r) (serialNumber r).
Definition set_expirationDateRaw v r :=
  mk_record (raw r) (gtin r) (ndc r) (Some v) (expirationDate r) (lotNumber r) (serialNumber r).
Definition set_expirationDate v r :=
  mk_record (raw r) (gtin r) (ndc r) (expirationDateRaw r) (Some v) (lotNumber r) (serialNumber r).
Definition set_lotNumber v r :=
  mk_record (raw r) (gtin r) (ndc r) (expirationDateRaw r) (expirationDate r) (Some v) (serialNumber r).

(** The body of the [try] block mutates [result] and may throw; a throw
    keeps the mutations made so far. *)
Definition PM (A : Type) : Type := gs1_record -> outcome A * gs1_record.

Definition ret {A} (a : A) : PM A := fun r => (Ret a, r).
Definition bind {A B} (m : PM A) (k : A -> PM B) : PM B :=
  fun r => match m r with
           | (Ret a, r') => k a r'
           | (Throw e, r') => (Throw e, r')
           end.
Definition modify (f : gs1_record -> gs1_record) : PM unit :=
  fun r => (Ret tt, f r).
Definition lift {A} (o : outcome A) : PM A := fun r => (o, r).

Declare Scope pm_scope.
Notation "x <- m ;; k" := (bind m (fun x => k))
  (at level 61, m at next level, right associativity) : pm_scope.
Open Scope pm_scope.

(** Lines 18-23: GTIN, AI 01 and 14 characters. *)
Definition extract_gtin (data : string) (pos : nat) : PM nat :=
  if String.eqb (JS.substring data pos (pos + 2)) "01" then
    let pos := pos + 2 in
    let g := JS.substring data pos (pos + 14) in
    _ <- modify (set_gtin g) ;;
    n <- lift (convertGTINtoNDC g) ;;
    _ <- modify (set_ndc n) ;;
    ret (pos + 14)
  else ret pos.

(** Lines 26-31: expiration date, AI 17 and 6 characters. *)
Definition extract_expiration (data : string) (pos : nat) : PM nat :=
  if String.eqb (JS.substring data pos (pos + 2)) "17" then
    let pos := pos + 2 in
    let e := JS.substring data pos (pos + 6) in
    _ <- modify (set_expirationDateRaw e) ;;
    _ <- modify (set_expirationDate (formatExpirationDate e)) ;;
    ret (pos + 6)
  else ret pos.

(** Lines 34-37: lot number, AI 10 and everything remaining. *)
Definition extract_lot (data : string) (pos : nat) : PM nat :=
  if String.eqb (JS.substring data pos (pos + 2)) "10" then
    let pos := pos + 2 in
    _ <- modify (set_lotNumber (JS.substring_from data pos)) ;;
    ret pos
  else ret pos.

(** The cursor after the GTIN and expiration-date steps, i.e. where the
    lot-number check reads the next AI. *)
Definition before_lot (data : string) : PM nat :=
  pos <- extract_gtin data 0 ;;
  extract_expiration data pos.

Definition parse_body (data : string) : PM nat :=
  pos <- before_lot data ;;
  extract_lot data pos.

(** [parseGS1DataMatrix(data)]: the [catch] logs the error and the record
    built so far is returned. *)
Definition parseGS1DataMatrix (data : string) : gs1_record :=
  snd (parse_body data (init_record data)).

End GS1.

(* ------------------------------------------------------------------ *)
(** ** [src/decode-dm.js]

    The image filters ([sharp]) and the symbol decoder ([readBarcodes] of
    zxing-wasm) are external capabilities. One preprocessing+decode attempt
    is modelled by an oracle [cap] that, for the attempt's descriptor,
    either returns the list of decoded symbols or throws (unreadable image,
    filter or decoder exception). The script's monad records the attempts
    evaluated, in order, so that the short-circuit can be observed. *)

Module DecodeDM.
Local Open Scope Z_scope.

(** The [sharp] operations; the gain of [linear] and the sigma of
    [sharpen] are in tenths. *)
Inductive filter_op :=
| Median (size : Z)
| Linear (gain_tenths bias : Z)
| Sharpen (sigma_tenths : option Z)
| Threshold (level : Z)
| Rotate (angle : Z).

Record decode_options := mk_options {
  formats : list string;
  tryHarder : bool;
  maxNumberOfSymbols : Z
}.

(** One call of [readBarcodes]: the buffer is the source file through the
    [recipe] ([None]: the file's bytes unprocessed), with the options passed
    ([None]: the decoder's defaults). *)
Record attempt := mk_attempt {
  recipe : option (list filter_op);
  options : option decode_options
}.

Definition dm_options : decode_options := mk_options ["DataMatrix"] true 10.

(** Lines 17-19 and 57-60. *)
Definition standard_recipe : list filter_op :=
  [Median 3; Linear 16 (-30); Sharpen None].
(** Lines 36-39. *)
Definition enhanced_recipe : list filter_op :=
  [Median 5; Linear 20 (-50); Sharpen (Some 15); Threshold 128].

Definition attempt_standard : attempt := mk_attempt (Some standard_recipe) (Some dm_options).
Definition attempt_enhanced : attempt := mk_attempt (Some enhanced_recipe) (Some dm_options).
Definition attempt_rotated (angle : Z) : attempt :=
  mk_attempt (Some (app standard_recipe [Rotate angle])) (Some dm_options).
Definition attempt_original : attempt := mk_attempt None None.

(** A decoded symbol. *)
Record barcode := mk_barcode { text : string; isValid : bool }.

Inductive cap_result :=
| Returned (results : list barcode)
| Threw.

(** How the script ends: the text printed with exit code 0, "Decode
    failed" (exit 2) or "Processing error" from the [catch] (exit 2). *)
Inductive run_result :=
| Printed (t : string)
| DecodeFailed
| ProcessingError.

Definition exit_code (r : run_result) : Z :=
  match r with
  | Printed _ => 0
  | DecodeFailed | ProcessingError => 2
  end.

(** Control of the script: go on, [process.exit], or an exception. *)
Inductive ctl (A : Type) : Type :=
| Cont (a : A)
| Exit (r : run_result)
| Raised.
Arguments Cont {A} a.
Arguments Exit {A} r.
Arguments Raised {A}.

Definition DM (A : Type) : Type := list attempt -> ctl A * list attempt.

Definition ret {A} (a : A) : DM A := fun tr => (Cont a, tr).
Definition bind {A B} (m : DM A) (k : A -> DM B) : DM B :=
  fun tr => match m tr with
            | (Cont a, tr') => k a tr'
            | (Exit r, tr') => (Exit r, tr')
            | (Raised, tr') => (Raised, tr')
            end.
Definition exit {A} (r : run_result) : DM A := fun tr => (Exit r, tr).
Definition skip : DM unit := ret tt.

(** [try { m } catch { h }]. *)
Definition try_catch (m h : DM unit) : DM unit :=
  fun tr => match m tr with
            | (Raised, tr') => h tr'
            | x => x
            end.

Fixpoint for_each {A} (l : list A) (f : A -> DM unit) : DM unit :=
  match l with
  | [] => skip
  | x :: l' => fun tr => match f x tr with
                         | (Cont _, tr') => for_each l' f tr'
                         | other => other
                         end
  end.

Declare Scope dm_scope.
Notation "x <- m ;; k" := (bind m (fun x => k))
  (at level 61, m at next level, right associativity) : dm_scope.
Open Scope dm_scope.

Section Script.

Variable cap : attempt -> cap_result.

(** The preprocessing and [await readBarcodes(...)] of one attempt. *)
Definition read_barcodes (a : attempt) : DM (list barcode) :=
  fun tr => match cap a with
            | Returned rs => (Cont rs, app tr [a])
            | Threw => (Raised, app tr [a])
            end.

(** Lines 29-32 and 49-52: only the first symbol is looked at. *)
Definition exit_if_first_valid (results : list barcode) : DM unit :=
  match results with
  | r :: _ => if isValid r then exit (Printed (text r)) else skip
  | [] => skip
  end.

(** Lines 70-76 and 83-89: the first valid symbol. *)
Definition exit_if_any_valid (results : list barcode) : DM unit :=
  match results with
  | [] => skip
  | _ :: _ =>
      match filter isValid results with
      | v :: _ => exit (Printed (text v))
      | [] => skip
      end
  end.

Definition script_body : DM unit :=
  results <- read_barcodes attempt_standard ;;
  _ <- exit_if_first_valid results ;;
  enhancedResults <- read_barcodes attempt_enhanced ;;
  _ <- exit_if_first_valid enhancedResults ;;
  _ <- for_each [90; 180; 270]%Z (fun angle =>
         rotatedResults <- read_barcodes (attempt_rotated angle) ;;
         exit_if_any_valid rotatedResults) ;;
  originalResults <- read_barcodes attempt_original ;;
  _ <- exit_if_any_valid originalResults ;;
  exit DecodeFailed.

(** The whole script after the argument check: its result (if it calls
    [process.exit]) and the attempts evaluated. *)
Definition decode_dm : option run_result * list attempt :=
  match try_catch script_body (exit ProcessingError) [] with
  | (Exit r, tr) => (Some r, tr)
  | (_, tr) => (None, tr)
  end.

End Script.

(** The fixed strategy list of the script, each attempt with the check
    its result goes through, and the strategy (1..4) it belongs to. *)
Definition accept_first (rs : list barcode) : option string :=
  match rs with
  | r :: _ => if isValid r then Some (text r) else None
  | [] => None
  end.

Definition accept_any (rs : list barcode) : option string :=
  match filter isValid rs with
  | v :: _ => Some (text v)
  | [] => None
  end.

Definition strategies : list (nat * attempt * (list barcode -> option string)) :=
  [(1%nat, attempt_standard, accept_first);
   (2%nat, attempt_enhanced, accept_first);
   (3%nat, attempt_rotated 90, accept_any);
   (3%nat, attempt_rotated 180, accept_any);
   (3%nat, attempt_rotated 270, accept_any);
   (4%nat, attempt_original, accept_any)].

Definition attempt_of (s : nat * attempt * (list barcode -> option string)) : attempt :=
  let '(_, a, _) := s in a.

Definition strategy_attempts : list attempt := map attempt_of strategies.

(** The strategy list evaluated one attempt after the other. *)
Fixpoint run_strategies (cap : attempt -> cap_result)
    (l : list (nat * attempt * (list barcode -> option string)))
    (tr : list attempt) : option run_result * list attempt :=
  match l with
  | [] => (Some DecodeFailed, tr)
  | (_, a, acc) :: l' =>
      match cap a with
      | Threw => (Some ProcessingError, app tr [a])
      | Returned rs =>
          match acc rs with
          | Some t => (Some (Printed t), app tr [a])
          | None => run_strategies cap l' (app tr [a])
          end
      end
  end.

(** What the [i]-th attempt (0-based) of the list yields on its own, a
    throw counting as no result. *)
Definition attempt_yield (cap : attempt -> cap_result) (i : nat) : option string :=
  match nth_error strategies i with
  | Some (_, a, acc) =>
      match cap a with
      | Returned rs => acc rs
      | Threw => None
      end
  | None => None
  end.


Definition attempt_throws (cap : attempt -> cap_result) (i : nat) : bool :=
  match nth_error strategies i with
  | Some (_, a, _) => match cap a with Threw => true | Returned _ => false end
  | None => false
  end.

Definition strategy_of (i : nat) : nat :=
  match nth_error strategies i with
  | Some (k, _, _) => k
  | None => 0%nat
  end.

(** An attempt that returns without an accepted symbol. *)
Definition passes (cap : attempt -> cap_result)
    (s : nat * attempt * (list barcode -> option string)) : Prop :=
  let '(_, a, acc) := s in
  match cap a with
  | Returned rs => acc rs = None
  | Threw => False
  end.

Definition filter_op_eq_dec (x y : filter_op) : {x = y} + {x <> y}.
Proof. decide equality; first [apply Z.eq_dec | decide equality; apply Z.eq_dec]. Defined.

Definition decode_options_eq_dec (x y : decode_options) : {x = y} + {x <> y}.
Proof.
  decide equality; first [apply Z.eq_dec | apply bool_dec
    | apply list_eq_dec; apply string_dec].
Defined.

Definition attempt_eq_dec (x y : attempt) : {x = y} + {x <> y}.
Proof.
  decide equality.
  - destruct options0 as [o|], options1 as [o'|];
      [destruct (decode_options_eq_dec o o'); [left; congruence | right; congruence]
      | right; congruence | right; congruence | left; reflexivity].
  - destruct recipe0 as [r|], recipe1 as [r'|];
      [destruct (list_eq_dec filter_op_eq_dec r r'); [left; congruence | right; congruence]
      | right; congruence | right; congruence | left; reflexivity].
Defined.

(** Concrete capability behaviours: [on_attempt a r d] answers [r] for
    the attempt [a] and as [d] for every other one. *)
Definition on_attempt (a : attempt) (r : cap_result) (d : attempt -> cap_result)
    : attempt -> cap_result :=
  fun a' => if attempt_eq_dec a' a then r else d a'.

Definition always (r : cap_result) : attempt -> cap_result := fun _ => r.

Definition valid_symbol (t : string) : barcode := mk_barcode t true.
Definition invalid_symbol : barcode := mk_barcode "?" false.


(** The 90 degree attempt throws, the 180 degree one decodes "Y". *)
Definition cap_rotation_throws : attempt -> cap_result :=
  on_attempt (attempt_rotated 90) Threw
    (on_attempt (attempt_rotated 180) (Returned [valid_symbol "Y"]) (always (Returned []))).

(** Every attempt throws. *)
Definition cap_all_throw : attempt -> cap_result := always Threw.

(** The standard recipe finds only an invalid symbol, the enhanced one
    decodes "E". *)
Definition cap_enhanced_wins : attempt -> cap_result :=
  on_attempt attempt_standard (Returned [invalid_symbol])
    (on_attempt attempt_enhanced (Returned [valid_symbol "E"]) (always (Returned []))).

(** The 180 degree attempt hits a decoder exception. *)
Definition cap_rotation_180_throws : attempt -> cap_result :=
  on_attempt (attempt_rotated 180) Threw (always (Returned [invalid_symbol])).

(** Symbols are found, none valid. *)
Definition cap_nothing_valid : attempt -> cap_result :=
  always (Returned [invalid_symbol]).

End DecodeDM.

(* ------------------------------------------------------------------ *)
(** ** The argument check of [src/decode-dm.js] (lines 8-12) *)

Module CLI.
Import DecodeDM.

Inductive cli_result :=
| UsageError
| Ran (r : option run_result).

Definition cli_exit_code (r : cli_result) : option Z :=
  match r with
  | UsageError => Some 1%Z
  | Ran (Some r) => Some (exit_code r)
  | Ran None => None
  end.

(** [process.argv[2]] ([None]: absent) and [fs.existsSync]; the empty
    string is falsy, so [!file] holds for it. *)
Definition main (cap : attempt -> cap_result) (arg : option string)
    (existsSync : string -> bool) : cli_result * list attempt :=
  match arg with
  | None => (UsageError, [])
  | Some file =>
      if String.eqb file "" || negb (existsSync file) then (UsageError, [])
      else let '(r, tr) := decode_dm cap in (Ran r, tr)
  end.

End CLI.

(* ------------------------------------------------------------------ *)
(** ** [queryOpenFDA] of [src/gs1-parser-test.js] (lines 93-145) *)

Module FDA.

(** [ndc.replace(/-/g, '')]. *)
Fixpoint remove_hyphens (s : string) : string :=
  match s with
  | EmptyString => EmptyString
  | String c s' => if Ascii.eqb c "-" then remove_hyphens s' else String c (remove_hyphens s')
  end.

Definition hex_digit (n : nat) : ascii :=
  nth n ["0"; "1"; "2"; "3"; "4"; "5"; "6"; "7"; "8"; "9";
         "A"; "B"; "C"; "D"; "E"; "F"]%char "0"%char.

Definition percent_byte (n : nat) : string :=
  String "%" (String (hex_digit (n / 16)%nat) (String (hex_digit (n mod 16)%nat) EmptyString)).

(** Characters [encodeURIComponent] leaves as they are. *)
Definition uri_unreserved (c : ascii) : bool :=
  let n := JS.code c in
  ((65 <=? n) && (n <=? 90))%nat || ((97 <=? n) && (n <=? 122))%nat ||
  ((48 <=? n) && (n <=? 57))%nat ||
  existsb (Ascii.eqb c) ["-"; "_"; "."; "!"; "~"; "*"; "'"; "("; ")"]%char.

(** [encodeURIComponent(s)] on code units below 256: those above 127 are
    two UTF-8 bytes. The strings of this development are sequences of such
    code units; the [URIError] that [encodeURIComponent] throws on a lone
    surrogate (a code unit in D800-DFFF, which line 107 would pass to the
    outer [catch]) therefore lies outside what is modelled here, and the
    facts proved about [queryOpenFDA] are about NDCs made of code units
    below 256. *)
Fixpoint encodeURIComponent (s : string) : string :=
  match s with
  | EmptyString => EmptyString
  | String c s' =>
      let n := JS.code c in
      (if uri_unreserved c then String c EmptyString
       else if (n <? 128)%nat then percent_byte n
       else percent_byte (192 + n / 64)%nat ++ percent_byte (128 + n mod 64)%nat)
      ++ encodeURIComponent s'
  end.

(** The double-quote character. *)
Definition dq : string := String (ascii_of_nat 34) EmptyString.

(** Lines 96-104. *)
Definition searchPatterns (ndc : string) : list string :=
  let cleanNDC := remove_hyphens ndc in
  ["product_ndc:" ++ dq ++ ndc ++ dq;
   "product_ndc:" ++ dq ++ JS.substring cleanNDC 0 5 ++ "-" ++ JS.substring cleanNDC 5 9 ++ dq;
   "product_ndc:" ++ JS.substring cleanNDC 0 5 ++ "*"].

(** Line 107. *)
Definition query_url (searchQuery : string) : string :=
  "https://api.fda.gov/drug/ndc.json?search=" ++ encodeURIComponent searchQuery ++ "&limit=5".

Section Query.

(** The drug records of the API, left abstract. *)
Variable drug : Type.

(** The parsed body: [BodyThrows] when [response.json()] rejects or the
    value read is [null]/[undefined] (reading [.results] of it throws);
    otherwise its [results] property ([None]: absent or falsy). *)
Inductive json_body :=
| BodyThrows
| BodyObject (results : option (list drug)).

Inductive fetch_result :=
| FetchThrows (message : string)
| Response (status : Z) (body : json_body).

(** The network, as a function of the URL. *)
Variable fetch : string -> fetch_result.

Inductive fda_result :=
| FdaSuccess (searchQuery : string) (result : drug) (allResults : list drug)
| FdaFailure (error : string).

(** Control: go on, [return], or an exception with its message; the
    monad records the URLs fetched. *)
Inductive ctl (A : Type) :=
| Cont (a : A)
| Return (r : fda_result)
| Raised (message : string).
Arguments Cont {A} a.
Arguments Return {A} r.
Arguments Raised {A} message.

Definition QM (A : Type) : Type := list string -> ctl A * list string.

Definition ret {A} (a : A) : QM A := fun tr => (Cont a, tr).
Definition bind {A B} (m : QM A) (k : A -> QM B) : QM B :=
  fun tr => match m tr with
            | (Cont a, tr') => k a tr'
            | (Return r, tr') => (Return r, tr')
            | (Raised e, tr') => (Raised e, tr')
            end.
Definition return_ {A} (r : fda_result) : QM A := fun tr => (Return r, tr).
Definition skip : QM unit := ret tt.

Definition try_catch {A} (m : QM A) (h : string -> QM A) : QM A :=
  fun tr => match m tr with
            | (Raised e, tr') => h e tr'
            | x => x
            end.

Fixpoint for_each (l : list string) (f : string -> QM unit) : QM unit :=
  match l with
  | [] => skip
  | x :: l' => bind (f x) (fun _ => for_each l' f)
  end.

(** [await fetch(url)]; a rejection raises. *)
Definition fetch_m (url : string) : QM (Z * json_body) :=
  fun tr => match fetch url with
            | FetchThrows e => (Raised e, app tr [url])
            | Response st b => (Cont (st, b), app tr [url])
            end.

(** [await response.json()] and the read of [data.results]. *)
Definition results_m (b : json_body) : QM (option (list drug)) :=
  fun tr => match b with
            | BodyThrows => (Raised "json", tr)
            | BodyObject r => (Cont r, tr)
            end.

(** [response.ok]: a status in 200..299. *)
Definition response_ok (status : Z) : bool := (200 <=? status)%Z && (status <=? 299)%Z.

(** Lines 107-131: one search pattern; the 404 and other-status branches
    only log, and the [catch] only logs. *)
Definition try_pattern (searchQuery : string) : QM unit :=
  let url := query_url searchQuery in
  try_catch
    (bind (fetch_m url) (fun '(status, body) =>
       if response_ok status then
         bind (results_m body) (fun results =>
           match results with
           | Some (d :: ds) => return_ (FdaSuccess searchQuery d (d :: ds))
           | _ => skip
           end)
       else skip))
    (fun _ => skip).

Definition no_match_error : string :=
  "No matching drug information found in OpenFDA database".

Definition query_body (ndc : string) : QM unit :=
  bind (for_each (searchPatterns ndc) try_pattern)
    (fun _ => return_ (FdaFailure no_match_error)).

(** [queryOpenFDA(ndc)]: the result and the URLs fetched, in order. *)
Definition queryOpenFDA (ndc : string) : option fda_result * list string :=
  match try_catch (query_body ndc)
          (fun e => return_ (FdaFailure ("Failed to fetch drug information: " ++ e))) [] with
  | (Return r, tr) => (Some r, tr)
  | (_, tr) => (None, tr)
  end.

(** What one pattern's request gives: the results when the response is ok
    and has a non-empty [results] list. *)
Definition pattern_hit (searchQuery : string) : option (list drug) :=
  match fetch (query_url searchQuery) with
  | Response st (BodyObject (Some (d :: ds))) =>
      if response_ok st then Some (d :: ds) else None
  | _ => None
  end.

End Query.

Arguments FdaSuccess {drug} searchQuery result allResults.
Arguments FdaFailure {drug} error.
Arguments BodyThrows {drug}.
Arguments BodyObject {drug} results.
Arguments FetchThrows {drug} message.
Arguments Response {drug} status body.
Arguments Cont {drug A} a.
Arguments Return {drug A} r.
Arguments Raised {drug A} message.

(** Two example networks: one where only the second pattern's request
    finds a drug, one where every request is answered with 404. *)
Definition fetch_second_hit (url : string) : fetch_result nat :=
  if String.eqb url (query_url (nth 1 (searchPatterns "49281-5890-58") ""))
  then Response 200%Z (BodyObject (Some [7%nat]))
  else Response 404%Z (BodyObject None).

Definition fetch_all_404 (url : string) : fetch_result nat :=
  Response 404%Z (BodyObject None).

End FDA.

(* ------------------------------------------------------------------ *)
(** ** Notions used to state the properties (not part of the program) *)

Module Calendar.
Local Open Scope Z_scope.

Definition leap_year (y : Z) : bool :=
  ((y mod 4 =? 0) && negb (y mod 100 =? 0)) || (y mod 400 =? 0).

Definition days_in_month (y m : Z) : Z :=
  if m =? 2 then (if leap_year y then 29 else 28)
  else if (m =? 4) || (m =? 6) || (m =? 9) || (m =? 11) then 30
  else 31.

(** The number written by two decimal digit characters. *)
Definition two_digit_value (a b : ascii) : Z :=
  Z.of_nat (10 * (JS.code a - 48) + (JS.code b - 48)).

Definition digit_chars : list ascii :=
  ["0"; "1"; "2"; "3"; "4"; "5"; "6"; "7"; "8"; "9"]%char.

(** Does [new Date(y, m - 1, d)] read back as [y]-[m]-[d]? *)
(** Every [f z] for [z] in [lo], ..., [lo + n - 1]. *)
Definition Z_range_all (lo : Z) (n : nat) (f : Z -> bool) : bool :=
  forallb (fun k => f (lo + Z.of_nat k)) (seq 0 n).

Definition date_eqb (a b : Z * Z * Z) : bool :=
  let '(y, m, d) := a in let '(y', m', d') := b in
  (y =? y') && (m =? m') && (d =? d').

(** The six characters of a [YYMMDD] field. *)
Definition yymmdd (y1 y2 m1 m2 d1 d2 : ascii) : string :=
  String y1 (String y2 (String m1 (String m2 (String d1 (String d2 EmptyString))))).

(** The year a two-digit year [v] stands for in [formatExpirationDate]. *)
Definition resolved_year (v : Z) : Z := if v <=? 30 then 2000 + v else 1900 + v.

(** The calendar month before [m] of year [y]. *)
Definition previous_month (y m : Z) : Z * Z := if m =? 1 then (y - 1, 12) else (y, m - 1).

Definition day_zero_ok (y m : Z) : bool :=
  let '(py, pm) := previous_month y m in
  date_eqb (JSDate.civil_from_days (JSDate.MakeDay y (m - 1) 0)) (py, pm, days_in_month py pm).

Definition month_13_ok (y d : Z) : bool :=
  date_eqb (JSDate.civil_from_days (JSDate.MakeDay y 12 d)) (y + 1, 1, d).

Definition month_0_ok (y d : Z) : bool :=
  date_eqb (JSDate.civil_from_days (JSDate.MakeDay y (-1) d)) (y - 1, 12, d).

Definition roundtrip_ok (y m d : Z) : bool :=
  let '(y', m', d') := JSDate.civil_from_days (JSDate.MakeDay y (m - 1) d) in
  (y' =? y) && (m' =? m) && (d' =? d).

End Calendar.

(* ------------------------------------------------------------------ *)
(** ** The decode script as a strategy list *)

Module DecodeFacts.
Local Open Scope list_scope.
Import DecodeDM.

(** The script evaluates exactly the fixed strategy list, in order. *)
Lemma decode_dm_run_strategies cap :
  decode_dm cap = run_strategies cap strategies [].
Proof.
  unfold decode_dm, try_catch, script_body, strategies, bind, ret, exit, skip,
    read_barcodes, exit_if_first_valid, exit_if_any_valid, accept_first, accept_any.
  cbn -[filter].
  repeat (match goal with
   | |- context [match cap ?a with _ => _ end] => destruct (cap a) as [?rs|]
   | |- context [match filter isValid ?l with _ => _ end] =>
        destruct (filter isValid l) eqn:?
   | |- context [match ?l with [] => _ | _ :: _ => _ end] =>
        match type of l with list barcode => destruct l end
   | |- context [if isValid ?r then _ else _] => destruct (isValid r)
   end; cbn -[filter]);
  solve [reflexivity | cbn in *; congruence].
Qed.

Lemma run_strategies_app cap l1 l2 tr :
  Forall (passes cap) l1 ->
  run_strategies cap (l1 ++ l2) tr = run_strategies cap l2 (tr ++ map attempt_of l1).
Proof.
  intros Hall. revert tr.
  induction Hall as [|[[k a] acc] l1 Hx Hall IH]; intros tr.
  - now rewrite app_nil_r.
  - cbn [app run_strategies]. unfold passes in Hx.
    destruct (cap a) as [rs|]; [|contradiction].
    rewrite Hx, IH. cbn [map attempt_of]. now rewrite <- app_assoc.
Qed.

(** The strategies before index [n] all pass when no attempt before [n]
    throws or yields. *)
Lemma prefix_passes cap n l1 l2 :
  strategies = l1 ++ l2 -> List.length l1 = n ->
  (forall i, (i < n)%nat -> attempt_throws cap i = false /\ attempt_yield cap i = None) ->
  Forall (passes cap) l1.
Proof.
  intros Hs Hlen H. apply Forall_forall. intros x Hin.
  destruct (In_nth_error _ _ Hin) as [i Hi].
  assert (Hlt : (i < n)%nat) by (subst n; apply nth_error_Some; congruence).
  destruct (H i Hlt) as [Ht Hy].
  unfold attempt_throws, attempt_yield in *.
  rewrite Hs, nth_error_app1 in Ht, Hy by (subst n; exact Hlt).
  rewrite Hi in Ht, Hy. destruct x as [[k a] acc]. unfold passes.
  destruct (cap a); congruence.
Qed.

Lemma firstn_split {A} (l1 l2 : list A) x :
  firstn (S (List.length l1)) (l1 ++ x :: l2) = l1 ++ [x].
Proof.
  induction l1 as [|y l1 IH]; cbn; [reflexivity|]. now rewrite <- IH.
Qed.

Lemma trace_prefix cap n k a acc :
  nth_error strategies n = Some (k, a, acc) ->
  (forall i, (i < n)%nat -> attempt_throws cap i = false /\ attempt_yield cap i = None) ->
  decode_dm cap =
    match cap a with
    | Threw => (Some ProcessingError, firstn (S n) strategy_attempts)
    | Returned rs =>
        match acc rs with
        | Some t => (Some (Printed t), firstn (S n) strategy_attempts)
        | None => run_strategies cap (skipn (S n) strategies) (firstn (S n) strategy_attempts)
        end
    end.
Proof.
  intros Hn H.
  destruct (nth_error_split _ _ Hn) as (l1 & l2 & Hs & Hlen).
  rewrite decode_dm_run_strategies, Hs.
  rewrite run_strategies_app by (eapply prefix_passes; eauto).
  assert (Hf : firstn (S n) strategy_attempts = map attempt_of l1 ++ [a]).
  { unfold strategy_attempts. rewrite Hs, firstn_map, <- Hlen, firstn_split.
    now rewrite map_app. }
  assert (Hk : skipn (S n) (l1 ++ (k, a, acc) :: l2) = l2).
  { rewrite <- Hlen. clear. induction l1; cbn; auto. }
  rewrite Hf, Hk. cbn [app run_strategies]. destruct (cap a); reflexivity.
Qed.






(** A throw at the [n]-th attempt, after attempts that neither throw nor
    yield, ends the script with a processing error after [n + 1] attempts. *)
Lemma throw_aborts cap n :
  (forall i, (i < n)%nat -> attempt_throws cap i = false /\ attempt_yield cap i = None) ->
  attempt_throws cap n = true ->
  decode_dm cap = (Some ProcessingError, firstn (S n) strategy_attempts).
Proof.
  intros H Ht. unfold attempt_throws in Ht.
  destruct (nth_error strategies n) as [[[k a] acc]|] eqn:Hn; [|discriminate].
  rewrite (trace_prefix cap n k a acc Hn H).
  destruct (cap a); [discriminate | reflexivity].
Qed.




(** C4 (as stated, refuted): the 90 degree attempt throws; the script does
    not go on to the 180 degree attempt (which decodes "Y") but ends with a
    processing error. *)
Lemma C4_attempt_error_not_swallowed :
  attempt_throws cap_rotation_throws 2 = true /\
  attempt_yield cap_rotation_throws 3 = Some "Y" /\
  decode_dm cap_rotation_throws =
    (Some ProcessingError, [attempt_standard; attempt_enhanced; attempt_rotated 90]).
Proof. vm_compute. repeat split. Qed.

(** C4 (amended): an attempt that throws is not caught on its own; it ends
    the whole script with a processing error (exit code 2) and no later
    attempt is evaluated. Only attempts that return (without an accepted
    symbol) move on to the next one. *)
Theorem decode_attempt_error_aborts cap n :
  (forall i, (i < n)%nat -> attempt_throws cap i = false /\ attempt_yield cap i = None) ->
  attempt_throws cap n = true ->
  decode_dm cap = (Some ProcessingError, firstn (S n) strategy_attempts) /\
  exit_code ProcessingError = 2%Z.
Proof.
  intros H Ht. unfold attempt_throws in Ht.
  destruct (nth_error strategies n) as [[[k a] acc]|] eqn:Hn; [|discriminate].
  rewrite (trace_prefix cap n k a acc Hn H).
  destruct (cap a); [discriminate|]. split; reflexivity.
Qed.

Lemma decode_attempt_error_aborts_witness :
  attempt_throws cap_rotation_180_throws 3 = true /\
  decode_dm cap_rotation_180_throws =
    (Some ProcessingError,
     [attempt_standard; attempt_enhanced; attempt_rotated 90; attempt_rotated 180]) /\
  exit_code ProcessingError = 2%Z.
Proof.
  split; [reflexivity|].
  apply (decode_attempt_error_aborts cap_rotation_180_throws 3).
  - intros i Hi.
    destruct i as [|[|[|i]]]; [split; reflexivity .. | lia].
  - reflexivity.
Defined.

(** C8 (as stated, refuted): when every attempt throws no attempt yields a
    valid decode, yet the result is a processing error, not a decode
    failure, and the original bytes are never tried. *)
Lemma C8_no_decode_without_fallback :
  (forall i, attempt_yield cap_all_throw i = None) /\
  decode_dm cap_all_throw = (Some ProcessingError, [attempt_standard]).
Proof.
  split.
  - intros i. unfold attempt_yield.
    destruct (nth_error strategies i) as [[[k a] acc]|]; reflexivity.
  - reflexivity.
Qed.

(** C8 (amended): when all six attempts return without an accepted symbol,
    the script reports a decode failure (exit code 2) after evaluating all
    six attempts in order, the original unprocessed bytes last. When
    instead the [n]-th attempt throws, the earlier ones returning without
    an accepted symbol, the script ends with a processing error (also exit
    code 2) after exactly the first [n + 1] attempts: no later attempt is
    tried, and the original bytes are tried only when they are the one
    that throws. *)
Theorem decode_exhausted_fails cap :
  ((forall i, (i < 6)%nat -> attempt_throws cap i = false /\ attempt_yield cap i = None) ->
   decode_dm cap = (Some DecodeFailed, strategy_attempts) /\
   exit_code DecodeFailed = 2%Z /\
   last strategy_attempts attempt_standard = attempt_original) /\
  (forall n,
   (forall i, (i < n)%nat -> attempt_throws cap i = false /\ attempt_yield cap i = None) ->
   attempt_throws cap n = true ->
   decode_dm cap = (Some ProcessingError, firstn (S n) strategy_attempts) /\
   exit_code ProcessingError = 2%Z /\
   (In attempt_original (snd (decode_dm cap)) -> n = 5%nat)).
Proof.
  split.
  - intros H. split; [|split; reflexivity].
    rewrite decode_dm_run_strategies, <- (app_nil_r strategies).
    rewrite run_strategies_app.
    + reflexivity.
    + eapply prefix_passes; [symmetry; apply app_nil_r | reflexivity | exact H].
  - intros n H Ht. pose proof (throw_aborts cap n H Ht) as E.
    split; [exact E | split; [reflexivity|]].
    rewrite E. cbn [snd]. intros Hin.
    assert (Hn : (n < 6)%nat).
    { unfold attempt_throws in Ht. destruct (nth_error strategies n) eqn:Hs; [|discriminate].
      enough (n < List.length strategies)%nat by (cbn in *; lia).
      apply nth_error_Some. congruence. }
    destruct n as [|[|[|[|[|[|n]]]]]]; try lia; cbn in Hin;
      repeat (destruct Hin as [Hin | Hin]; [discriminate Hin |]); contradiction.
Qed.

Lemma decode_exhausted_fails_witness :
  decode_dm cap_nothing_valid = (Some DecodeFailed, strategy_attempts) /\
  decode_dm cap_rotation_180_throws =
    (Some ProcessingError,
     [attempt_standard; attempt_enhanced; attempt_rotated 90; attempt_rotated 180]).
Proof.
  split.
  - apply (proj1 (decode_exhausted_fails cap_nothing_valid)).
    intros i Hi.
    destruct i as [|[|[|[|[|[|i]]]]]]; [split; reflexivity .. | lia].
  - apply (proj2 (decode_exhausted_fails cap_rotation_180_throws) 3).
    + intros i Hi. destruct i as [|[|[|i]]]; [split; reflexivity .. | lia].
    + reflexivity.
Defined.

End DecodeFacts.

(* ------------------------------------------------------------------ *)
(** ** Facts about the JavaScript built-ins and the calendar *)

Module BuiltinFacts.
Import Calendar.

Lemma digit_cases c : JS.is_digit c = true -> In c digit_chars.
Proof.
  destruct c as [[] [] [] [] [] [] [] []]; vm_compute; intros H;
    first [discriminate H | tauto].
Qed.

Ltac digit_destruct H :=
  apply digit_cases in H; cbn [In digit_chars] in H;
  repeat (destruct H as [<- | H]); try contradiction.

Lemma parseInt_two_digits a b :
  JS.is_digit a = true -> JS.is_digit b = true ->
  JS.parseInt (String a (String b EmptyString)) = Some (two_digit_value a b).
Proof.
  intros Ha Hb. digit_destruct Ha; digit_destruct Hb; reflexivity.
Qed.

Lemma two_digit_value_range a b :
  JS.is_digit a = true -> JS.is_digit b = true ->
  (0 <= two_digit_value a b <= 99)%Z.
Proof.
  intros Ha Hb. digit_destruct Ha; digit_destruct Hb; vm_compute; split; discriminate.
Qed.

Lemma roundtrip_table :
  forallb (fun k =>
    let y := (1931 + Z.of_nat k)%Z in
    forallb (fun j =>
      let m := (1 + Z.of_nat j)%Z in
      forallb (fun i => roundtrip_ok y m (1 + Z.of_nat i))
        (seq 0 (Z.to_nat (days_in_month y m))))
      (seq 0 12))
    (seq 0 100) = true.
Proof. vm_compute. reflexivity. Qed.

(** [new Date(y, m - 1, d)] is the date [y]-[m]-[d] for every calendar
    date of the years 1931 to 2030. *)
Lemma MakeDay_roundtrip y m d :
  (1931 <= y <= 2030)%Z -> (1 <= m <= 12)%Z -> (1 <= d <= days_in_month y m)%Z ->
  JSDate.civil_from_days (JSDate.MakeDay y (m - 1) d) = (y, m, d).
Proof.
  intros Hy Hm Hd.
  pose proof roundtrip_table as T.
  rewrite forallb_forall in T.
  specialize (T (Z.to_nat (y - 1931))).
  rewrite in_seq in T. cbv zeta in T.
  rewrite Z2Nat.id in T by lia.
  replace (1931 + (y - 1931))%Z with y in T by lia.
  specialize (T ltac:(lia)). rewrite forallb_forall in T.
  specialize (T (Z.to_nat (m - 1))). rewrite in_seq in T.
  rewrite Z2Nat.id in T by lia.
  replace (1 + (m - 1))%Z with m in T by lia.
  specialize (T ltac:(lia)). rewrite forallb_forall in T.
  specialize (T (Z.to_nat (d - 1))). rewrite in_seq in T.
  rewrite Z2Nat.id in T by lia.
  replace (1 + (d - 1))%Z with d in T by lia.
  specialize (T ltac:(lia)).
  unfold roundtrip_ok in T.
  destruct (JSDate.civil_from_days (JSDate.MakeDay y (m - 1) d)) as [[y' m'] d'].
  apply andb_prop in T as [T T3]. apply andb_prop in T as [T1 T2].
  apply Z.eqb_eq in T1, T2, T3. now subst.
Qed.

Lemma substring_length s n m :
  String.length (String.substring n m s) = Nat.min m (String.length s - n).
Proof.
  revert n m. induction s as [|c s IH]; intros n m.
  - destruct n, m; cbn; lia.
  - destruct n as [|n], m as [|m]; cbn; try rewrite IH; cbn; lia.
Qed.

Lemma substring_all s : String.substring 0 (String.length s) s = s.
Proof. induction s as [|c s IH]; cbn; congruence. Qed.

(** An AI "10" found at [p] splits the payload into what precedes it, the
    AI and the whole remainder. *)
Lemma substring_10_split data p :
  JS.substring data p (p + 2) = "10" ->
  exists pre, data = pre ++ "10" ++ JS.substring_from data (p + 2) /\
              String.length pre = p.
Proof.
  unfold JS.substring, JS.substring_from.
  replace (p + 2 - p) with 2 by lia.
  revert data. induction p as [|p IH]; intros data H.
  - destruct data as [|c1 [|c2 rest]]; cbn in H; try discriminate.
    injection H as -> ->. exists EmptyString. cbn.
    rewrite Nat.sub_0_r, substring_all. auto.
  - destruct data as [|c data]; cbn in H; [discriminate|].
    destruct (IH data H) as (pre & Hd & Hl).
    exists (String c pre). cbn. split; [|now rewrite Hl].
    f_equal. exact Hd.
Qed.

End BuiltinFacts.

(* ------------------------------------------------------------------ *)
(** ** The GS1 parser *)

Module GS1Facts.
Import GS1 Calendar BuiltinFacts.

Ltac gs1_unfold :=
  unfold parseGS1DataMatrix, parse_body, before_lot, extract_gtin,
    extract_expiration, extract_lot, bind, ret, modify, lift, convertGTINtoNDC in *;
  cbn -[JS.substring JS.substring_from formatExpirationDate String.eqb String.length] in *.

Ltac gs1_split :=
  repeat match goal with
         | |- context [if ?b then _ else _] => destruct b eqn:?
         end.

Definition reference_payload : string := "010034928158905817131028100U42275AA".

(** C2: the reference payload of the test script. *)
Theorem parseGS1_reference_payload :
  parseGS1DataMatrix reference_payload =
    mk_record "010034928158905817131028100U42275AA" (Some "00349281589058") (Some "49281-5890-58")
      (Some "131028") (Some "October 28, 2013") (Some "0U42275AA") None /\
  expirationDateValue "131028" = Some (JSDate.days_from_civil 2013 10 28).
Proof. split; vm_compute; reflexivity. Qed.

(** C3: [convertGTINtoNDC] throws for every length other than 14; on 14
    characters it returns characters 4-8, 9-12 and 13-14 (1-indexed)
    joined by hyphens. *)
Theorem convertGTINtoNDC_spec g :
  (String.length g <> 14 -> convertGTINtoNDC g = Throw InvalidGTINFormat) /\
  (String.length g = 14 ->
   convertGTINtoNDC g =
     Ret (String.substring 3 5 g ++ "-" ++ String.substring 8 4 g ++ "-" ++
          String.substring 12 2 g)).
Proof.
  split; intros H.
  - unfold convertGTINtoNDC. apply Nat.eqb_neq in H. now rewrite H.
  - do 14 (destruct g as [|? g]; [discriminate H | cbn in H; injection H as H]).
    destruct g; [reflexivity | discriminate H].
Qed.

Lemma convertGTINtoNDC_spec_witness :
  convertGTINtoNDC "00349281589058" = Ret "49281-5890-58" /\
  convertGTINtoNDC "123" = Throw InvalidGTINFormat.
Proof.
  split.
  - apply (proj2 (convertGTINtoNDC_spec "00349281589058")). reflexivity.
  - apply (proj1 (convertGTINtoNDC_spec "123")). cbn. discriminate.
Defined.

(** C6: the two-digit year 00-30 is resolved to 2000-2030 and 31-99 to
    1931-1999; for a calendar-valid month and day the date shown carries
    that year; "300101" gives 2030 and "310101" gives 1931. *)
Theorem formatExpirationDate_century y1 y2 m1 m2 d1 d2 :
  JS.is_digit y1 = true -> JS.is_digit y2 = true ->
  let s := String y1 (String y2 (String m1 (String m2 (String d1 (String d2 EmptyString))))) in
  let yy := two_digit_value y1 y2 in
  let fy := if (yy <=? 30)%Z then (2000 + yy)%Z else (1900 + yy)%Z in
  ((yy <= 30)%Z -> fullYear s = Some (2000 + yy)%Z /\ (2000 <= 2000 + yy <= 2030)%Z) /\
  ((31 <= yy)%Z -> fullYear s = Some (1900 + yy)%Z /\ (1931 <= 1900 + yy <= 1999)%Z) /\
  (JS.is_digit m1 = true -> JS.is_digit m2 = true ->
   JS.is_digit d1 = true -> JS.is_digit d2 = true ->
   let mm := two_digit_value m1 m2 in
   let dd := two_digit_value d1 d2 in
   (1 <= mm <= 12)%Z -> (1 <= dd <= days_in_month fy mm)%Z ->
   exists t, expirationDateValue s = Some t /\ JSDate.civil_from_days t = (fy, mm, dd)) /\
  formatExpirationDate "300101" = "January 1, 2030" /\
  formatExpirationDate "310101" = "January 1, 1931".
Proof.
  intros Hy1 Hy2 s yy fy.
  pose proof (two_digit_value_range _ _ Hy1 Hy2) as Hr.
  assert (Hfy : fullYear s = Some fy).
  { unfold fullYear, s. cbn [JS.substring String.substring Nat.sub].
    now rewrite parseInt_two_digits by assumption. }
  split; [|split; [|split; [|split; vm_compute; reflexivity]]].
  - intros H. rewrite Hfy. unfold fy. fold yy.
    destruct (Z.leb_spec yy 30); [split; [reflexivity | lia] | lia].
  - intros H. rewrite Hfy. unfold fy. fold yy.
    destruct (Z.leb_spec yy 30); [lia | split; [reflexivity | lia]].
  - intros Hm1 Hm2 Hd1 Hd2 mm dd Hmm Hdd.
    exists (JSDate.MakeDay fy (mm - 1) dd). split.
    + unfold expirationDateValue. rewrite Hfy.
      unfold s. cbn [JS.substring String.substring Nat.sub].
      rewrite !parseInt_two_digits by assumption.
      unfold JSDate.new_Date. fold mm dd.
      replace ((0 <=? fy)%Z && (fy <=? 99)%Z) with false; [reflexivity|].
      unfold fy; destruct (Z.leb_spec yy 30);
        symmetry; apply andb_false_iff; right; apply Z.leb_gt; lia.
    + apply MakeDay_roundtrip; [unfold fy; destruct (Z.leb_spec yy 30); lia | lia | lia].
Qed.

Lemma formatExpirationDate_century_witness :
  fullYear "300101" = Some 2030%Z /\ fullYear "310101" = Some 1931%Z /\
  exists t, expirationDateValue "300101" = Some t /\
            JSDate.civil_from_days t = (2030%Z, 1%Z, 1%Z).
Proof.
  destruct (formatExpirationDate_century "3" "0" "0" "1" "0" "1" eq_refl eq_refl)
    as (H30 & _ & Hd & _).
  destruct (formatExpirationDate_century "3" "1" "0" "1" "0" "1" eq_refl eq_refl)
    as (_ & H31 & _).
  destruct (H30 ltac:(vm_compute; discriminate)) as [E30 _].
  destruct (H31 ltac:(vm_compute; discriminate)) as [E31 _].
  split; [rewrite E30; reflexivity|].
  split; [rewrite E31; reflexivity|].
  destruct (Hd eq_refl eq_refl eq_refl eq_refl) as (t & Ht & Hc);
    [vm_compute; split; discriminate .. |].
  exists t. split; [exact Ht | exact Hc].
Defined.

(** C10: [serialNumber] is never set, and a payload starting with none of
    the AIs 01, 17 and 10 gives the bare record. *)
Theorem parseGS1_no_serialNumber data :
  serialNumber (parseGS1DataMatrix data) = None /\
  (~ In (JS.substring data 0 2) ["01"; "17"; "10"] ->
   parseGS1DataMatrix data = init_record data).
Proof.
  split.
  - gs1_unfold. gs1_split; reflexivity.
  - intros Hn. gs1_unfold. gs1_split; try reflexivity; exfalso; apply Hn;
      match goal with
      | H : String.eqb (JS.substring data 0 _) _ = true |- _ =>
          apply String.eqb_eq in H; rewrite ?Nat.add_0_l in H; rewrite H;
          repeat (first [left; reflexivity | right])
      end.
Qed.

Lemma parseGS1_no_serialNumber_witness :
  parseGS1DataMatrix "21ABC" = init_record "21ABC".
Proof.
  apply (proj2 (parseGS1_no_serialNumber "21ABC")).
  cbn. intros [H|[H|[H|[]]]]; discriminate H.
Defined.

(** C7: when the cursor, after the GTIN and expiration-date steps, reads
    the AI "10", the record returned is the one built so far with
    [lotNumber] set to the whole remainder of the payload, and nothing
    else changes. *)
Theorem parseGS1_lot_takes_rest data p r :
  before_lot data (init_record data) = (Ret p, r) ->
  JS.substring data p (p + 2) = "10" ->
  parseGS1DataMatrix data = set_lotNumber (JS.substring_from data (p + 2)) r /\
  exists pre, data = pre ++ "10" ++ JS.substring_from data (p + 2) /\
              String.length pre = p.
Proof.
  intros Hb H10. split.
  - unfold parseGS1DataMatrix, parse_body. unfold bind at 1. rewrite Hb.
    unfold extract_lot. rewrite H10. reflexivity.
  - now apply substring_10_split.
Qed.

Lemma parseGS1_lot_takes_rest_witness :
  parseGS1DataMatrix reference_payload =
    set_lotNumber "0U42275AA" (snd (before_lot reference_payload (init_record reference_payload))).
Proof.
  destruct (parseGS1_lot_takes_rest reference_payload 24
              (snd (before_lot reference_payload (init_record reference_payload))))
    as [H _]; [vm_compute; reflexivity | vm_compute; reflexivity |].
  exact H.
Defined.

Ltac bool_facts :=
  repeat match goal with
         | H : String.eqb _ _ = true |- _ => apply String.eqb_eq in H
         | H : String.eqb _ _ = false |- _ => apply String.eqb_neq in H
         | H : negb _ = true |- _ => apply negb_true_iff in H
         | H : negb _ = false |- _ => apply negb_false_iff in H
         | H : Nat.eqb _ _ = true |- _ => apply Nat.eqb_eq in H
         | H : Nat.eqb _ _ = false |- _ => apply Nat.eqb_neq in H
         end;
  rewrite ?Nat.add_0_l in *.

Lemma gtin_window_length data :
  String.length (JS.substring data 2 16) = 14 <-> 16 <= String.length data.
Proof. unfold JS.substring. rewrite substring_length. cbn [Nat.sub]. lia. Qed.

(** C5 (as stated, refuted): a GTIN of three characters and an expiration
    date of two are recorded, and a GTIN is not checked to be digits. *)
Lemma C5_short_fields_recorded :
  gtin (parseGS1DataMatrix "01123") = Some "123" /\
  ndc (parseGS1DataMatrix "01123") = None /\
  expirationDateRaw (parseGS1DataMatrix "1712") = Some "12" /\
  expirationDate (parseGS1DataMatrix "1712") = Some "12" /\
  gtin (parseGS1DataMatrix "01ABCDEFGHIJKLMN") = Some "ABCDEFGHIJKLMN".
Proof. vm_compute. repeat split. Qed.

(** C5 (amended): an AI 01 at the start always records [gtin], as the
    window of at most 14 characters after it (no digit check), even when
    fewer than 14 characters remain; [gtin] has 14 characters exactly when
    the payload has at least 16, and [ndc] is set exactly then. When the
    cursor after the GTIN step is at an AI 17, [expirationDateRaw] is
    recorded as the window of at most 6 characters after it, shorter when
    fewer remain; and any recorded [expirationDateRaw] is such a window. *)
Theorem parseGS1_field_windows data :
  (JS.substring data 0 2 = "01" ->
   gtin (parseGS1DataMatrix data) = Some (JS.substring data 2 16)) /\
  (forall g, gtin (parseGS1DataMatrix data) = Some g ->
   JS.substring data 0 2 = "01" /\ g = JS.substring data 2 16 /\
   (String.length g = 14 <-> 16 <= String.length data) /\
   (ndc (parseGS1DataMatrix data) <> None <-> String.length g = 14)) /\
  (forall p r1, extract_gtin data 0 (init_record data) = (Ret p, r1) ->
   JS.substring data p (p + 2) = "17" ->
   expirationDateRaw (parseGS1DataMatrix data) = Some (JS.substring data (p + 2) (p + 8)) /\
   String.length (JS.substring data (p + 2) (p + 8)) =
     Nat.min 6 (String.length data - (p + 2))) /\
  (forall e, expirationDateRaw (parseGS1DataMatrix data) = Some e ->
   exists p, JS.substring data p (p + 2) = "17" /\
             e = JS.substring data (p + 2) (p + 8) /\
             expirationDate (parseGS1DataMatrix data) = Some (formatExpirationDate e)).
Proof.
  pose proof (gtin_window_length data) as Hw.
  split; [|split; [|split]].
  - intros H. gs1_unfold. gs1_split; bool_facts; cbn; congruence.
  - intros g. gs1_unfold. gs1_split; cbn; intros Hg; try discriminate;
      injection Hg as <-; bool_facts;
      (split; [assumption | split; [reflexivity | split; [exact Hw|]]]);
      split; intros H; try congruence; exfalso; auto.
  - intros p r1 Hx H17.
    split; [| unfold JS.substring; rewrite substring_length; lia].
    revert Hx H17. gs1_unfold. gs1_split; cbn; intros Hx H17;
      inversion Hx; subst; bool_facts; cbn in *; auto; congruence.
  - intros e. gs1_unfold. gs1_split; cbn; intros He; try discriminate;
      injection He as <-; bool_facts;
      first [ exists 0; split; [assumption | split; reflexivity]
            | exists 16; split; [assumption | split; reflexivity] ].
Qed.

Lemma parseGS1_field_windows_witness :
  gtin (parseGS1DataMatrix "01123") = Some "123" /\
  ndc (parseGS1DataMatrix "0112345678901234") <> None /\
  expirationDateRaw (parseGS1DataMatrix "1712") = Some "12" /\
  (exists p, JS.substring "1712" p (p + 2) = "17" /\
             "12" = JS.substring "1712" (p + 2) (p + 8)).
Proof.
  destruct (parseGS1_field_windows "01123") as [H1 _].
  split; [exact (H1 eq_refl)|].
  destruct (parseGS1_field_windows "0112345678901234") as [_ [Hg _]].
  destruct (Hg "12345678901234" eq_refl) as (_ & _ & _ & Hn).
  split; [apply Hn; reflexivity|].
  destruct (parseGS1_field_windows "1712") as [_ [_ [H3 He]]].
  split; [exact (proj1 (H3 0 (init_record "1712") eq_refl eq_refl))|].
  destruct (He "12" eq_refl) as (p & Hp & Hq & _).
  exists p. split; assumption.
Defined.

(** C9: [parseGS1DataMatrix] returns a record for every payload (the only
    exception of the body, from [convertGTINtoNDC], is caught). An AI
    missing at the cursor leaves its field absent; when the conversion
    throws, the record still holds the [gtin] extracted before it. *)
Theorem parseGS1_best_effort data :
  let r := parseGS1DataMatrix data in
  raw r = data /\
  (JS.substring data 0 2 <> "01" -> gtin r = None /\ ndc r = None) /\
  (JS.substring data 0 2 = "01" -> gtin r = Some (JS.substring data 2 16)) /\
  (JS.substring data 0 2 = "01" -> String.length data < 16 ->
   fst (parse_body data (init_record data)) = Throw InvalidGTINFormat /\
   ndc r = None /\ expirationDateRaw r = None /\ expirationDate r = None /\
   lotNumber r = None) /\
  (forall p r1, extract_gtin data 0 (init_record data) = (Ret p, r1) ->
   JS.substring data p (p + 2) <> "17" ->
   expirationDateRaw r = None /\ expirationDate r = None) /\
  (forall p r1, before_lot data (init_record data) = (Ret p, r1) ->
   JS.substring data p (p + 2) <> "10" -> lotNumber r = None).
Proof.
  pose proof (gtin_window_length data) as Hw.
  intros r. unfold r. clear r.
  split; [|split; [|split; [|split; [|split]]]].
  - gs1_unfold. gs1_split; reflexivity.
  - intros H. gs1_unfold. gs1_split; bool_facts; cbn; try congruence; auto.
  - intros H. gs1_unfold. gs1_split; bool_facts; cbn; congruence.
  - intros H Hl. gs1_unfold. gs1_split; bool_facts; cbn; try congruence;
      first [ solve [repeat split]
            | exfalso;
              match goal with H : String.length (JS.substring data 2 16) = 14 |- _ =>
                apply Hw in H end; lia ].
  - intros p r1 Hx Hne. revert Hx Hne. gs1_unfold. gs1_split; cbn; intros Hx Hne;
      inversion Hx; subst; bool_facts; cbn in *; auto; congruence.
  - intros p r1 Hx Hne. revert Hx Hne. gs1_unfold. gs1_split; cbn; intros Hx Hne;
      inversion Hx; subst; bool_facts; cbn in *; auto; congruence.
Qed.

Lemma parseGS1_best_effort_witness :
  gtin (parseGS1DataMatrix "0100349281") = Some "00349281" /\
  fst (parse_body "0100349281" (init_record "0100349281")) = Throw InvalidGTINFormat /\
  lotNumber (parseGS1DataMatrix "0100349281") = None.
Proof.
  destruct (parseGS1_best_effort "0100349281") as (_ & _ & Hg & Hf & _).
  split; [apply Hg; reflexivity|].
  destruct (Hf eq_refl) as (Ht & _ & _ & _ & Hlot); [cbn; lia|].
  split; [exact Ht | exact Hlot].
Defined.

End GS1Facts.

(* ------------------------------------------------------------------ *)
(** ** Further facts about the decode script and its argument check *)

Module DecodeExtra.
Import DecodeDM DecodeFacts.
Local Open Scope list_scope.

Lemma run_strategies_prefix cap l tr :
  exists n r, (1 <= n \/ l = [])%nat /\ (n <= List.length l)%nat /\
    run_strategies cap l tr = (Some r, tr ++ firstn n (map attempt_of l)).
Proof.
  revert tr. induction l as [|[[k a] acc] l IH]; intros tr.
  - exists 0%nat, DecodeFailed. cbn. rewrite app_nil_r. auto.
  - cbn [run_strategies]. destruct (cap a) as [rs|].
    + destruct (acc rs) as [t|].
      * exists 1%nat, (Printed t). cbn. split; [left; lia | split; [lia | reflexivity]].
      * destruct (IH (tr ++ [a])) as (n & r & _ & Hn & E).
        exists (S n), r. rewrite E, <- app_assoc. cbn. split; [left; lia | split; [lia|reflexivity]].
    + exists 1%nat, ProcessingError. cbn. split; [left; lia | split; [lia | reflexivity]].
Qed.

(** The script always ends through [process.exit], after evaluating a
    non-empty prefix of the six attempts, in their fixed order and each
    at most once. *)
Theorem decode_dm_trace_prefix cap :
  exists n r, (1 <= n <= 6)%nat /\
    decode_dm cap = (Some r, firstn n strategy_attempts).
Proof.
  rewrite decode_dm_run_strategies.
  destruct (run_strategies_prefix cap strategies []) as (n & r & Hn & Hle & E).
  exists n, r. rewrite E. cbn in Hn, Hle. split; [destruct Hn; [lia | discriminate] | reflexivity].
Qed.

Definition accept_sound (acc : list barcode -> option string) : Prop :=
  forall rs t, acc rs = Some t -> exists b, In b rs /\ isValid b = true /\ text b = t.

Lemma accept_first_sound : accept_sound accept_first.
Proof.
  intros [|r rs] t H; cbn in H; [discriminate|].
  destruct (isValid r) eqn:E; [|discriminate]. injection H as <-.
  exists r. cbn. auto.
Qed.

Lemma accept_any_sound : accept_sound accept_any.
Proof.
  intros rs t H. unfold accept_any in H.
  destruct (filter isValid rs) as [|v vs] eqn:E; [discriminate|].
  injection H as <-. assert (Hin : In v (filter isValid rs)) by (rewrite E; left; reflexivity).
  apply filter_In in Hin as [Hin Hv]. eauto.
Qed.

Lemma run_strategies_sound cap l tr t tr' :
  Forall (fun s => let '(_, _, acc) := s in accept_sound acc) l ->
  run_strategies cap l tr = (Some (Printed t), tr') ->
  exists a rs b, In a tr' /\ cap a = Returned rs /\ In b rs /\ isValid b = true /\ text b = t.
Proof.
  intros Hall. revert tr. induction Hall as [|[[k a] acc] l Hacc Hall IH]; intros tr H.
  - discriminate H.
  - cbn [run_strategies] in H. destruct (cap a) as [rs|] eqn:Ec; [|discriminate H].
    destruct (acc rs) as [t'|] eqn:Ea.
    + injection H as <- <-. destruct (Hacc rs t' Ea) as (b & Hb & Hv & Ht).
      exists a, rs, b. rewrite in_app_iff. cbn. auto.
    + destruct (IH _ H) as (a' & rs' & b & Hin & R).
      exists a', rs', b. auto.
Qed.

(** Whatever the script prints is the text of a symbol marked valid that
    the decoder returned for one of the attempts it evaluated. *)
Theorem decode_dm_prints_valid_symbol cap t tr :
  decode_dm cap = (Some (Printed t), tr) ->
  exists a rs b, In a tr /\ cap a = Returned rs /\ In b rs /\
                 isValid b = true /\ text b = t.
Proof.
  rewrite decode_dm_run_strategies. apply run_strategies_sound.
  repeat constructor; first [apply accept_first_sound | apply accept_any_sound].
Qed.

Lemma decode_dm_prints_valid_symbol_witness :
  exists a rs b, In a [attempt_standard; attempt_enhanced] /\
    cap_enhanced_wins a = Returned rs /\ In b rs /\ isValid b = true /\ text b = "E".
Proof.
  apply (decode_dm_prints_valid_symbol cap_enhanced_wins "E").
  vm_compute. reflexivity.
Defined.

End DecodeExtra.

Module CLIFacts.
Import DecodeDM CLI.

(** The argument check: no argument, an empty one or a path that does not
    exist gives the usage error (exit code 1) before any attempt; otherwise
    the decode script runs and the process always exits with 0 or 2. *)
Theorem main_usage_or_decode cap arg existsSync :
  ((arg = None \/ arg = Some "" \/
    exists f, arg = Some f /\ existsSync f = false) ->
   main cap arg existsSync = (UsageError, []) /\ cli_exit_code UsageError = Some 1%Z) /\
  (forall f, arg = Some f -> f <> "" -> existsSync f = true ->
   exists r, main cap arg existsSync = (Ran (Some r), snd (decode_dm cap)) /\
     (cli_exit_code (Ran (Some r)) = Some 0%Z \/ cli_exit_code (Ran (Some r)) = Some 2%Z)).
Proof.
  split.
  - intros [-> | [-> | (f & -> & Hf)]]; split; try reflexivity.
    cbn. rewrite Hf, orb_true_r. reflexivity.
  - intros f -> Hne Hex. unfold main.
    destruct (String.eqb_spec f "") as [|_]; [contradiction|]. rewrite Hex. cbn.
    destruct (DecodeExtra.decode_dm_trace_prefix cap) as (n & r & _ & E).
    exists r. rewrite E. split; [reflexivity|].
    destruct r; cbn; auto.
Qed.

Lemma main_usage_or_decode_witness :
  main cap_nothing_valid None (fun _ => true) = (UsageError, []) /\
  main cap_nothing_valid (Some "") (fun _ => true) = (UsageError, []) /\
  exists r, main cap_nothing_valid (Some "img.png") (fun _ => true) =
              (Ran (Some r), snd (decode_dm cap_nothing_valid)).
Proof.
  destruct (main_usage_or_decode cap_nothing_valid None (fun _ => true)) as [H1 _].
  destruct (main_usage_or_decode cap_nothing_valid (Some "") (fun _ => true)) as [H2 _].
  destruct (main_usage_or_decode cap_nothing_valid (Some "img.png") (fun _ => true))
    as [_ H3].
  split; [apply H1; left; reflexivity|].
  split; [apply H2; right; left; reflexivity|].
  destruct (H3 "img.png" eq_refl ltac:(discriminate) eq_refl) as (r & Hr & _).
  exists r. exact Hr.
Defined.

End CLIFacts.

Module FDAFacts.
Import FDA.
Local Open Scope list_scope.

Section Fetch.
Variable drug : Type.
Variable fetch : string -> fetch_result drug.

Lemma try_pattern_spec q tr :
  try_pattern drug fetch q tr =
  (match pattern_hit drug fetch q with
   | Some (d :: ds) => Return (FdaSuccess q d (d :: ds))
   | _ => Cont tt
   end, tr ++ [query_url q]).
Proof.
  unfold try_pattern, pattern_hit, try_catch, bind, fetch_m.
  destruct (fetch (query_url q)) as [e|st [|[[|d ds]|]]]; cbn; try reflexivity;
    destruct (response_ok st); reflexivity.
Qed.

Lemma for_each_first_hit l n q d ds tr :
  nth_error l n = Some q ->
  (forall i q', (i < n)%nat -> nth_error l i = Some q' -> pattern_hit drug fetch q' = None) ->
  pattern_hit drug fetch q = Some (d :: ds) ->
  for_each drug l (try_pattern drug fetch) tr =
  (Return (FdaSuccess q d (d :: ds)), tr ++ firstn (S n) (map query_url l)).
Proof.
  revert n tr. induction l as [|x l IH]; intros n tr Hq Hbefore Hhit.
  - destruct n; discriminate.
  - cbn [for_each]. unfold bind at 1. rewrite try_pattern_spec.
    destruct n as [|n].
    + injection Hq as ->. rewrite Hhit. reflexivity.
    + rewrite (Hbefore 0%nat x ltac:(lia) eq_refl).
      rewrite (IH n (tr ++ [query_url x])); [| exact Hq | | exact Hhit].
      * rewrite <- app_assoc. reflexivity.
      * intros i q' Hi Hi'. apply (Hbefore (S i)); [lia | exact Hi'].
Qed.

Lemma for_each_all_miss l tr :
  (forall q, In q l -> pattern_hit drug fetch q = None) ->
  for_each drug l (try_pattern drug fetch) tr = (Cont tt, tr ++ map query_url l).
Proof.
  revert tr. induction l as [|x l IH]; intros tr Hmiss.
  - cbn. rewrite app_nil_r. reflexivity.
  - cbn [for_each]. unfold bind at 1. rewrite try_pattern_spec.
    rewrite (Hmiss x (or_introl eq_refl)).
    rewrite IH by (intros q Hq; apply Hmiss; right; exact Hq).
    rewrite <- app_assoc. reflexivity.
Qed.

Lemma for_each_outcome l tr :
  exists tr', for_each drug l (try_pattern drug fetch) tr = (Cont tt, tr') \/
    exists q d ds, for_each drug l (try_pattern drug fetch) tr =
                   (Return (FdaSuccess q d ds), tr').
Proof.
  revert tr. induction l as [|x l IH]; intros tr.
  - exists tr. left. reflexivity.
  - cbn [for_each]. unfold bind. rewrite try_pattern_spec.
    destruct (pattern_hit drug fetch x) as [[|d ds]|]; try apply IH.
    eexists. right. do 3 eexists. reflexivity.
Qed.

End Fetch.

(** The lookup returns the first search pattern, in the order of the
    three patterns, whose request answers with an ok status and a
    non-empty [results] list; the earlier patterns' failures (rejected
    fetch, non-ok status, unreadable body, missing or empty results) are
    swallowed, and exactly the URLs up to that pattern are requested. *)
Theorem queryOpenFDA_first_hit {drug} (fetch : string -> fetch_result drug)
    ndc n q d ds :
  nth_error (searchPatterns ndc) n = Some q ->
  (forall i q', (i < n)%nat -> nth_error (searchPatterns ndc) i = Some q' ->
                pattern_hit drug fetch q' = None) ->
  pattern_hit drug fetch q = Some (d :: ds) ->
  queryOpenFDA drug fetch ndc =
  (Some (FdaSuccess q d (d :: ds)), firstn (S n) (map query_url (searchPatterns ndc))).
Proof.
  intros Hq Hbefore Hhit. unfold queryOpenFDA, try_catch, query_body, bind.
  rewrite (for_each_first_hit drug fetch _ n q d ds [] Hq Hbefore Hhit). reflexivity.
Qed.

(** For an NDC of code units below 256 (every string of this model, and
    every NDC of digits and hyphens), so that [encodeURIComponent] at line
    107 cannot throw: when none of the three patterns hits, all three URLs
    are requested in order and the result is the "no matching drug"
    failure. *)
Theorem queryOpenFDA_no_match {drug} (fetch : string -> fetch_result drug) ndc :
  (forall q, In q (searchPatterns ndc) -> pattern_hit drug fetch q = None) ->
  queryOpenFDA drug fetch ndc =
  (Some (FdaFailure no_match_error), map query_url (searchPatterns ndc)).
Proof.
  intros Hmiss. unfold queryOpenFDA, try_catch, query_body, bind.
  rewrite (for_each_all_miss drug fetch _ [] Hmiss). reflexivity.
Qed.

(** For an NDC of code units below 256 (every string of this model, and
    every NDC of digits and hyphens), so that [encodeURIComponent] at line
    107 cannot throw: whatever the network does, the lookup resolves with a
    result, and a failure is always the "no matching drug" one; the outer
    "Failed to fetch drug information" branch is never taken. *)
Theorem queryOpenFDA_never_outer_failure {drug} (fetch : string -> fetch_result drug)
    ndc :
  exists r, fst (queryOpenFDA drug fetch ndc) = Some r /\
    (forall e, r = FdaFailure e -> e = no_match_error).
Proof.
  unfold queryOpenFDA, try_catch, query_body, bind.
  destruct (for_each_outcome drug fetch (searchPatterns ndc) []) as
      (tr' & [E | (q & d & ds & E)]); rewrite E; cbn.
  - eexists. split; [reflexivity|]. intros e He. injection He as <-. reflexivity.
  - eexists. split; [reflexivity|]. intros e He. discriminate He.
Qed.

End FDAFacts.

Module FDAExamples.
Import FDA FDAFacts.

Lemma queryOpenFDA_first_hit_witness :
  queryOpenFDA nat fetch_second_hit "49281-5890-58" =
  (Some (FdaSuccess (nth 1 (searchPatterns "49281-5890-58") "") 7%nat [7%nat]),
   firstn 2 (map query_url (searchPatterns "49281-5890-58"))).
Proof.
  apply (queryOpenFDA_first_hit fetch_second_hit "49281-5890-58" 1
           (nth 1 (searchPatterns "49281-5890-58") "") 7%nat []).
  - reflexivity.
  - intros [|i] q' Hi Hq; [|lia]. injection Hq as <-. vm_compute. reflexivity.
  - vm_compute. reflexivity.
Defined.

Lemma queryOpenFDA_no_match_witness :
  queryOpenFDA nat fetch_all_404 "49281-5890-58" =
  (Some (FdaFailure no_match_error), map query_url (searchPatterns "49281-5890-58")).
Proof.
  apply queryOpenFDA_no_match. intros q _. reflexivity.
Defined.

End FDAExamples.

(* ------------------------------------------------------------------ *)
(** ** Further facts about the GS1 parser and its helpers *)

Module GS1Extra.
Import GS1 FDA Calendar BuiltinFacts.

Lemma string_length_app a b :
  String.length (a ++ b) = (String.length a + String.length b)%nat.
Proof. induction a as [|c a IH]; cbn; congruence. Qed.

Lemma substring_app_skip a b j m :
  String.substring (String.length a + j) m (a ++ b) = String.substring j m b.
Proof. induction a as [|c a IH]; cbn; [reflexivity | exact IH]. Qed.

Lemma substring_0_0 s : String.substring 0 0 s = "".
Proof. destruct s; reflexivity. Qed.

Lemma substring_app_prefix a b :
  String.substring 0 (String.length a) (a ++ b) = a.
Proof. induction a as [|c a IH]; cbn; [destruct b; reflexivity | congruence]. Qed.

Ltac no_hyphen_facts H :=
  cbn in H; repeat rewrite andb_true_iff in H;
  repeat match goal with
         | H : _ /\ _ |- _ => destruct H
         | H : negb _ = true |- _ => apply negb_true_iff in H
         end.

Ltac explode14 g Hlen :=
  do 14 (destruct g as [|? g]; [discriminate Hlen|]);
  destruct g; [|discriminate Hlen].

(** [convertGTINtoNDC] returns a 13-character code in the 5-4-2 shape:
    hyphens at (0-based) positions 5 and 10. *)
Theorem convertGTINtoNDC_shape g n :
  convertGTINtoNDC g = Ret n ->
  String.length n = 13%nat /\ String.get 5 n = Some "-"%char /\
  String.get 10 n = Some "-"%char.
Proof.
  unfold convertGTINtoNDC. destruct (String.length g =? 14)%nat eqn:E; cbn; [|discriminate].
  apply Nat.eqb_eq in E. intros H. injection H as <-.
  explode14 g E. cbn. auto.
Qed.

Lemma convertGTINtoNDC_shape_witness :
  String.length "49281-5890-58" = 13%nat /\ String.get 5 "49281-5890-58" = Some "-"%char /\
  String.get 10 "49281-5890-58" = Some "-"%char.
Proof. apply (convertGTINtoNDC_shape "00349281589058"). reflexivity. Defined.

(** For a GTIN without hyphens, the three OpenFDA search patterns built
    from its NDC are the full NDC in quotes, the labeler-product code (the
    NDC without its package code) in quotes, and the labeler code followed
    by a wildcard. *)
Theorem searchPatterns_of_gtin g n :
  forallb (fun c => negb (Ascii.eqb c "-")) (list_ascii_of_string g) = true ->
  convertGTINtoNDC g = Ret n ->
  searchPatterns n =
  ["product_ndc:" ++ dq ++ n ++ dq;
   "product_ndc:" ++ dq ++ JS.substring n 0 10 ++ dq;
   "product_ndc:" ++ JS.substring n 0 5 ++ "*"].
Proof.
  intros Hnh. unfold convertGTINtoNDC.
  destruct (String.length g =? 14)%nat eqn:E; cbn; [|discriminate].
  apply Nat.eqb_eq in E. intros H. injection H as <-.
  explode14 g E. no_hyphen_facts Hnh.
  unfold searchPatterns, JS.substring, JS.substring_from. cbn.
  repeat match goal with H : Ascii.eqb _ _ = false |- _ => rewrite H; clear H end.
  reflexivity.
Qed.

Lemma searchPatterns_of_gtin_witness :
  searchPatterns "49281-5890-58" =
  ["product_ndc:" ++ dq ++ "49281-5890-58" ++ dq;
   "product_ndc:" ++ dq ++ JS.substring "49281-5890-58" 0 10 ++ dq;
   "product_ndc:" ++ JS.substring "49281-5890-58" 0 5 ++ "*"].
Proof. apply (searchPatterns_of_gtin "00349281589058"); reflexivity. Defined.

Ltac gs1_step := cbn -[JS.substring JS.substring_from formatExpirationDate convertGTINtoNDC].

(** Round trip: the payload [01 GTIN 17 YYMMDD 10 LOT], with a 14-character
    GTIN and a 6-character date, parses back to exactly its parts: the
    GTIN, its NDC, the raw and formatted date and the whole lot. *)
Theorem parseGS1_roundtrip g e lot :
  String.length g = 14%nat -> String.length e = 6%nat ->
  parseGS1DataMatrix ("01" ++ g ++ "17" ++ e ++ "10" ++ lot) =
  mk_record ("01" ++ g ++ "17" ++ e ++ "10" ++ lot) (Some g)
    (Some (JS.substring g 3 8 ++ "-" ++ JS.substring g 8 12 ++ "-" ++ JS.substring g 12 14))
    (Some e) (Some (formatExpirationDate e)) (Some lot) None.
Proof.
  intros Hg He.
  set (data := "01" ++ g ++ "17" ++ e ++ "10" ++ lot).
  assert (Hlen : String.length data = (26 + String.length lot)%nat).
  { unfold data. rewrite !string_length_app, Hg, He. cbn. lia. }
  assert (H01 : JS.substring data 0 2 = "01") by (unfold JS.substring, data; cbn; rewrite substring_0_0; reflexivity).
  assert (HG : JS.substring data 2 16 = g).
  { unfold JS.substring, data. cbn. rewrite <- Hg at 1. apply substring_app_prefix. }
  assert (H17 : JS.substring data 16 18 = "17").
  { unfold JS.substring, data. cbn.
    replace 14%nat with (String.length g + 0)%nat by lia.
    rewrite substring_app_skip. cbn. rewrite substring_0_0. reflexivity. }
  assert (HE : JS.substring data 18 24 = e).
  { unfold JS.substring, data. cbn.
    replace 16%nat with (String.length g + 2)%nat by lia.
    rewrite substring_app_skip. cbn. rewrite <- He at 1. apply substring_app_prefix. }
  assert (H10 : JS.substring data 24 26 = "10").
  { unfold JS.substring, data. cbn.
    replace 22%nat with (String.length g + 8)%nat by lia.
    rewrite substring_app_skip. cbn.
    replace 6%nat with (String.length e + 0)%nat by lia.
    rewrite substring_app_skip. cbn. rewrite substring_0_0. reflexivity. }
  assert (HL : JS.substring_from data 26 = lot).
  { unfold JS.substring_from. rewrite Hlen.
    replace (26 + String.length lot - 26)%nat with (String.length lot) by lia.
    unfold data. cbn.
    replace 24%nat with (String.length g + 10)%nat by lia.
    rewrite substring_app_skip. cbn.
    replace 8%nat with (String.length e + 2)%nat by lia.
    rewrite substring_app_skip. cbn. apply substring_all. }
  assert (HN : convertGTINtoNDC g =
    Ret (JS.substring g 3 8 ++ "-" ++ JS.substring g 8 12 ++ "-" ++ JS.substring g 12 14)).
  { clear -Hg. explode14 g Hg. reflexivity. }
  clearbody data.
  unfold parseGS1DataMatrix, parse_body, before_lot, extract_gtin,
    extract_expiration, extract_lot, GS1.bind, GS1.ret, modify, lift.
  gs1_step. rewrite H01. gs1_step. rewrite HG, HN. gs1_step.
  rewrite H17. gs1_step. rewrite HE. gs1_step.
  rewrite H10. gs1_step. rewrite HL. reflexivity.
Qed.

Lemma parseGS1_roundtrip_witness :
  parseGS1DataMatrix ("01" ++ "00349281589058" ++ "17" ++ "131028" ++ "10" ++ "0U42275AA") =
  mk_record ("01" ++ "00349281589058" ++ "17" ++ "131028" ++ "10" ++ "0U42275AA") (Some "00349281589058")
    (Some (JS.substring "00349281589058" 3 8 ++ "-" ++ JS.substring "00349281589058" 8 12
           ++ "-" ++ JS.substring "00349281589058" 12 14))
    (Some "131028") (Some (formatExpirationDate "131028")) (Some "0U42275AA") None.
Proof. apply parseGS1_roundtrip; reflexivity. Defined.

End GS1Extra.

Module DateExtra.
Import GS1 Calendar BuiltinFacts.
Local Open Scope Z_scope.

Lemma Z_range_all_spec lo n f z :
  Z_range_all lo n f = true -> lo <= z < lo + Z.of_nat n -> f z = true.
Proof.
  unfold Z_range_all. rewrite forallb_forall. intros T Hz.
  specialize (T (Z.to_nat (z - lo))). rewrite in_seq in T.
  rewrite Z2Nat.id in T by lia. replace (lo + (z - lo)) with z in T by lia.
  apply T. lia.
Qed.

Lemma date_eqb_eq a b : date_eqb a b = true -> a = b.
Proof.
  destruct a as [[y m] d], b as [[y' m'] d']. cbn.
  rewrite !andb_true_iff, !Z.eqb_eq. intros [[-> ->] ->]. reflexivity.
Qed.

Lemma day_zero_table :
  Z_range_all 1931 100 (fun y => Z_range_all 1 12 (day_zero_ok y)) = true.
Proof. vm_compute. reflexivity. Qed.

Lemma month_13_table :
  Z_range_all 1931 100 (fun y => Z_range_all 1 31 (month_13_ok y)) = true.
Proof. vm_compute. reflexivity. Qed.

Lemma month_0_table :
  Z_range_all 1931 100 (fun y => Z_range_all 1 31 (month_0_ok y)) = true.
Proof. vm_compute. reflexivity. Qed.

Lemma table_lookup f y x n :
  Z_range_all 1931 100 (fun y => Z_range_all 1 n (f y)) = true ->
  1931 <= y <= 2030 -> 1 <= x <= Z.of_nat n -> f y x = true.
Proof.
  intros T Hy Hx. apply (Z_range_all_spec 1931 100 _ y) in T; [|lia].
  apply (Z_range_all_spec 1 n _ x) in T; [exact T | lia].
Qed.

Lemma resolved_year_range v : 0 <= v <= 99 -> 1931 <= resolved_year v <= 2030.
Proof. unfold resolved_year. destruct (Z.leb_spec v 30); lia. Qed.

Lemma expirationDateValue_digits y1 y2 m1 m2 d1 d2 :
  JS.is_digit y1 = true -> JS.is_digit y2 = true -> JS.is_digit m1 = true ->
  JS.is_digit m2 = true -> JS.is_digit d1 = true -> JS.is_digit d2 = true ->
  expirationDateValue (yymmdd y1 y2 m1 m2 d1 d2) =
  Some (JSDate.MakeDay (resolved_year (two_digit_value y1 y2))
          (two_digit_value m1 m2 - 1) (two_digit_value d1 d2)).
Proof.
  intros Hy1 Hy2 Hm1 Hm2 Hd1 Hd2.
  pose proof (resolved_year_range _ (two_digit_value_range _ _ Hy1 Hy2)) as Hr.
  unfold expirationDateValue, fullYear, yymmdd, JS.substring. cbn [String.substring Nat.sub].
  rewrite !parseInt_two_digits by assumption.
  fold (resolved_year (two_digit_value y1 y2)).
  unfold JSDate.new_Date.
  destruct ((0 <=? resolved_year (two_digit_value y1 y2)) &&
            (resolved_year (two_digit_value y1 y2) <=? 99)) eqn:E; [|reflexivity].
  apply andb_prop in E as [_ E]. apply Z.leb_le in E. lia.
Qed.

Lemma month_name_not_invalid m rest :
  JSDate.month_name m ++ " " ++ rest <> "Invalid Date".
Proof.
  unfold JSDate.month_name. destruct (Z.to_nat (m - 1)) as [|n];
    [cbn; discriminate|].
  do 11 (destruct n as [|n]; [cbn; discriminate|]).
  cbn. destruct n; discriminate.
Qed.

Lemma formatExpirationDate_digits y1 y2 m1 m2 d1 d2 :
  JS.is_digit y1 = true -> JS.is_digit y2 = true -> JS.is_digit m1 = true ->
  JS.is_digit m2 = true -> JS.is_digit d1 = true -> JS.is_digit d2 = true ->
  formatExpirationDate (yymmdd y1 y2 m1 m2 d1 d2) =
  JSDate.toLocaleDateString (Some (JSDate.MakeDay (resolved_year (two_digit_value y1 y2))
          (two_digit_value m1 m2 - 1) (two_digit_value d1 d2))).
Proof.
  intros. unfold formatExpirationDate. cbn [String.length yymmdd Nat.eqb negb].
  rewrite expirationDateValue_digits by assumption. reflexivity.
Qed.

(** A six-character date formats as "Invalid Date" exactly when one of
    its two-character fields does not parse as a number ([parseInt] gives
    [NaN]); otherwise the text starts with a month name or, for a month
    field outside 01..12 that still parses, with the empty name. *)
Theorem formatExpirationDate_invalid_iff_nan s :
  String.length s = 6%nat ->
  (formatExpirationDate s = "Invalid Date" <->
   JS.parseInt (JS.substring s 0 2) = None \/ JS.parseInt (JS.substring s 2 4) = None \/
   JS.parseInt (JS.substring s 4 6) = None).
Proof.
  intros H. unfold formatExpirationDate. rewrite H. cbn [Nat.eqb negb].
  unfold expirationDateValue, fullYear, JSDate.new_Date, JSDate.toLocaleDateString.
  destruct (JS.parseInt (JS.substring s 0 2)), (JS.parseInt (JS.substring s 2 4)),
    (JS.parseInt (JS.substring s 4 6)); split; intros Hx; auto;
    try (destruct Hx as [Hx | [Hx | Hx]]; discriminate Hx).
  destruct (JSDate.civil_from_days _) as [[y m] d].
  exfalso. exact (month_name_not_invalid _ _ Hx).
Qed.

Lemma formatExpirationDate_invalid_iff_nan_witness :
  formatExpirationDate "ab0101" = "Invalid Date" /\
  formatExpirationDate "130101" <> "Invalid Date".
Proof.
  split.
  - apply (formatExpirationDate_invalid_iff_nan "ab0101"); [reflexivity|].
    left. reflexivity.
  - intros Hx. apply (formatExpirationDate_invalid_iff_nan "130101") in Hx;
      [|reflexivity].
    destruct Hx as [Hx | [Hx | Hx]]; discriminate Hx.
Defined.

Lemma day_zero_ok_spec y m :
  day_zero_ok y m = true ->
  JSDate.civil_from_days (JSDate.MakeDay y (m - 1) 0) =
  (fst (previous_month y m), snd (previous_month y m),
   days_in_month (fst (previous_month y m)) (snd (previous_month y m))).
Proof. unfold day_zero_ok. destruct (previous_month y m) as [py pm]. apply date_eqb_eq. Qed.

Lemma month_13_ok_spec y d :
  month_13_ok y d = true ->
  JSDate.civil_from_days (JSDate.MakeDay y 12 d) = (y + 1, 1, d).
Proof. unfold month_13_ok. apply date_eqb_eq. Qed.

Lemma month_0_ok_spec y d :
  month_0_ok y d = true ->
  JSDate.civil_from_days (JSDate.MakeDay y (-1) d) = (y - 1, 12, d).
Proof. unfold month_0_ok. apply date_eqb_eq. Qed.

(** Day field 00 is not rejected: for a valid month it rolls back to the
    last day of the previous month (of the previous year for month 01). *)
Theorem formatExpirationDate_day_zero y1 y2 m1 m2 :
  JS.is_digit y1 = true -> JS.is_digit y2 = true -> JS.is_digit m1 = true ->
  JS.is_digit m2 = true -> 1 <= two_digit_value m1 m2 <= 12 ->
  formatExpirationDate (yymmdd y1 y2 m1 m2 "0" "0") =
  JSDate.month_name (snd (previous_month (resolved_year (two_digit_value y1 y2))
                                         (two_digit_value m1 m2))) ++ " " ++
  JS.Z_to_string (days_in_month
    (fst (previous_month (resolved_year (two_digit_value y1 y2)) (two_digit_value m1 m2)))
    (snd (previous_month (resolved_year (two_digit_value y1 y2)) (two_digit_value m1 m2)))) ++
  ", " ++
  JS.Z_to_string (fst (previous_month (resolved_year (two_digit_value y1 y2))
                                      (two_digit_value m1 m2))).
Proof.
  intros Hy1 Hy2 Hm1 Hm2 Hm.
  rewrite formatExpirationDate_digits by (assumption || reflexivity).
  pose proof (resolved_year_range _ (two_digit_value_range _ _ Hy1 Hy2)) as Hr.
  generalize dependent (two_digit_value m1 m2). intros m Hm.
  generalize dependent (resolved_year (two_digit_value y1 y2)). intros y Hr.
  pose proof (table_lookup day_zero_ok _ _ 12 day_zero_table Hr Hm) as T.
  change (two_digit_value "0" "0") with 0.
  unfold JSDate.toLocaleDateString. rewrite (day_zero_ok_spec _ _ T). reflexivity.
Qed.

Lemma formatExpirationDate_day_zero_witness :
  formatExpirationDate "130300" = "February 28, 2013" /\
  formatExpirationDate "130100" = "December 31, 2012".
Proof.
  split.
  - change "130300" with (yymmdd "1" "3" "0" "3" "0" "0").
    rewrite (formatExpirationDate_day_zero "1" "3" "0" "3"); try reflexivity.
    vm_compute. split; discriminate.
  - change "130100" with (yymmdd "1" "3" "0" "1" "0" "0").
    rewrite (formatExpirationDate_day_zero "1" "3" "0" "1"); try reflexivity.
    vm_compute. split; discriminate.
Defined.

(** Month 13 and month 00 are not rejected either: month 13 is January
    of the next year, month 00 is December of the previous year, with the
    day as written (for days 01..31). *)
Theorem formatExpirationDate_month_rollover y1 y2 m1 m2 d1 d2 :
  JS.is_digit y1 = true -> JS.is_digit y2 = true -> JS.is_digit m1 = true ->
  JS.is_digit m2 = true -> JS.is_digit d1 = true -> JS.is_digit d2 = true ->
  1 <= two_digit_value d1 d2 <= 31 ->
  (two_digit_value m1 m2 = 13 ->
   formatExpirationDate (yymmdd y1 y2 m1 m2 d1 d2) =
   "January " ++ JS.Z_to_string (two_digit_value d1 d2) ++ ", " ++
   JS.Z_to_string (resolved_year (two_digit_value y1 y2) + 1)) /\
  (two_digit_value m1 m2 = 0 ->
   formatExpirationDate (yymmdd y1 y2 m1 m2 d1 d2) =
   "December " ++ JS.Z_to_string (two_digit_value d1 d2) ++ ", " ++
   JS.Z_to_string (resolved_year (two_digit_value y1 y2) - 1)).
Proof.
  intros Hy1 Hy2 Hm1 Hm2 Hd1 Hd2 Hd.
  rewrite formatExpirationDate_digits by assumption.
  pose proof (resolved_year_range _ (two_digit_value_range _ _ Hy1 Hy2)) as Hr.
  generalize dependent (two_digit_value d1 d2). intros d Hd.
  generalize dependent (resolved_year (two_digit_value y1 y2)). intros y Hr.
  unfold JSDate.toLocaleDateString.
  split; intros Hm; rewrite Hm.
  - pose proof (table_lookup month_13_ok _ _ 31 month_13_table Hr Hd) as T.
    replace (13 - 1) with 12 by reflexivity.
    rewrite (month_13_ok_spec _ _ T). reflexivity.
  - pose proof (table_lookup month_0_ok _ _ 31 month_0_table Hr Hd) as T.
    replace (0 - 1) with (-1) by reflexivity.
    rewrite (month_0_ok_spec _ _ T). reflexivity.
Qed.

Lemma formatExpirationDate_month_rollover_witness :
  formatExpirationDate "131305" = "January 5, 2014" /\
  formatExpirationDate "130005" = "December 5, 2012".
Proof.
  destruct (formatExpirationDate_month_rollover "1" "3" "1" "3" "0" "5")
    as [H13 _]; try reflexivity.
  { vm_compute. split; discriminate. }
  destruct (formatExpirationDate_month_rollover "1" "3" "0" "0" "0" "5")
    as [_ H0]; try reflexivity.
  { vm_compute. split; discriminate. }
  split.
  - change "131305" with (yymmdd "1" "3" "1" "3" "0" "5").
    rewrite H13 by reflexivity. vm_compute. reflexivity.
  - change "130005" with (yymmdd "1" "3" "0" "0" "0" "5").
    rewrite H0 by reflexivity. vm_compute. reflexivity.
Defined.

End DateExtra.
